(** * Cache-aside property listing: a shallow embedding of
    properties/utils.py and properties/views.py.

    The Django cache is a map from string keys to entries carrying an
    expiry instant; the database is the ordered list of Property rows.
    Every operation runs in a small state monad that also records the
    cache and database calls it makes and may raise a Python exception. *)

From stdpp Require Import base gmap strings list.
From Stdlib Require Import ZArith.

Open Scope Z_scope.
Set Warnings "-register-all".

(* ------------------------------------------------------------------ *)
(** ** Python values *)

(** The Python objects the code builds: dicts returned by
    [QuerySet.values], the dicts passed to [JsonResponse]. *)
Inductive PyVal :=
| PNone
| PBool (b : bool)
| PInt (n : Z)
| PStr (s : string)
| PDecimal (units : Z)        (* a DecimalField value *)
| PDateTime (epoch : Z)       (* a DateTimeField value *)
| PList (xs : list PyVal)
| PDict (kvs : list (string * PyVal)).

(** A Python dict with string keys, in insertion order. *)
Abbreviation Dict := (list (string * PyVal)).

(** [d[k]] on a dict: the first binding of [k]. *)
Fixpoint dict_get (k : string) (d : Dict) : option PyVal :=
  match d with
  | [] => None
  | (k', v) :: d' => if String.eqb k k' then Some v else dict_get k d'
  end.

(** [obj[k]] on a value that should be a dict. *)
Definition py_get (k : string) (v : PyVal) : option PyVal :=
  match v with
  | PDict d => dict_get k d
  | _ => None
  end.

(** Python truthiness of a list ([if cached_data]). *)
Definition list_truthy {A} (l : list A) : bool :=
  match l with [] => false | _ => true end.

(* ------------------------------------------------------------------ *)
(** ** The Property model *)

(** Modelled from the spec: the Property model (properties/models.py is
    not part of the sources). Its six attributes are an integer id
    assigned by the store, title, description, a decimal price,
    location and a creation timestamp assigned by the store. *)
Record Property := mkProperty {
  prop_id : Z;
  title : string;
  description : string;
  price : Z;
  location : string;
  created_at : Z
}.

(** Modelled from the spec: reading a model field by name, as
    [QuerySet.values] does; an unknown name is a [FieldError]. *)
Definition model_field (f : string) (r : Property) : option PyVal :=
  if String.eqb f "id" then Some (PInt (prop_id r))
  else if String.eqb f "title" then Some (PStr (title r))
  else if String.eqb f "description" then Some (PStr (description r))
  else if String.eqb f "price" then Some (PDecimal (price r))
  else if String.eqb f "location" then Some (PStr (location r))
  else if String.eqb f "created_at" then Some (PDateTime (created_at r))
  else None.

(* ------------------------------------------------------------------ *)
(** ** World state, effects and the monad *)

(** A cache entry: the stored value and the instant it expires. *)
Record CacheEntry := mkEntry {
  entry_value : list Dict;
  entry_expires : Z
}.

Record St := mkSt {
  cache : gmap string CacheEntry;  (* the Redis cache *)
  store : list Property;           (* the Property table, in store order *)
  now : Z                          (* the clock, in seconds *)
}.

(** The external calls an operation makes, in order. *)
Inductive Event :=
| ECacheGet (k : string)
| ECacheSet (k : string) (ttl : Z)
| ECacheDelete (k : string)
| EQueryValues (fields : list string)
| EQueryCount.

(** Python exceptions raised by this code's own calls. *)
Inductive Exc :=
| FieldError (f : string).

Definition M (A : Type) : Type := St -> (Exc + A) * St * list Event.

Definition ret {A} (a : A) : M A := fun s => (inr a, s, []).

Definition raise {A} (e : Exc) : M A := fun s => (inl e, s, []).

Definition bind {A B} (c : M A) (k : A -> M B) : M B :=
  fun s =>
    match c s with
    | (inl e, s', ev) => (inl e, s', ev)
    | (inr a, s', ev) =>
        match k a s' with
        | (r, s'', ev') => (r, s'', ev ++ ev')
        end
    end.

Notation "'do' x <- c 'in' k" := (bind c (fun x => k))
  (at level 200, x name, c at level 100, k at level 200).
Notation "'do_' c 'in' k" := (bind c (fun _ => k))
  (at level 200, c at level 100, k at level 200).

(* ------------------------------------------------------------------ *)
(** ** Django cache and ORM calls *)

(** [cache.get(key)]: [None] when the key is missing or has expired. *)
Definition cache_get (k : string) : M (option (list Dict)) :=
  fun s =>
    let r := match cache s !! k with
             | Some e => if now s <? entry_expires e then Some (entry_value e)
                         else None
             | None => None
             end in
    (inr r, s, [ECacheGet k]).

(** [cache.set(key, value, timeout)]. *)
Definition cache_set (k : string) (v : list Dict) (ttl : Z) : M unit :=
  fun s =>
    (inr tt, mkSt (<[k := mkEntry v (now s + ttl)]> (cache s)) (store s) (now s),
     [ECacheSet k ttl]).

(** [cache.delete(key)]: removing a missing key does nothing. *)
Definition cache_delete (k : string) : M unit :=
  fun s => (inr tt, mkSt (delete k (cache s)) (store s) (now s), [ECacheDelete k]).

(** One row of [.values(fields...)]: a dict with the named fields in order. *)
Fixpoint row_values (fields : list string) (r : Property) : Exc + Dict :=
  match fields with
  | [] => inr []
  | f :: fs =>
      match model_field f r with
      | None => inl (FieldError f)
      | Some v =>
          match row_values fs r with
          | inl e => inl e
          | inr d => inr ((f, v) :: d)
          end
      end
  end.

Fixpoint rows_values (fields : list string) (rs : list Property) : Exc + list Dict :=
  match rs with
  | [] => inr []
  | r :: rs' =>
      match row_values fields r with
      | inl e => inl e
      | inr d =>
          match rows_values fields rs' with
          | inl e => inl e
          | inr ds => inr (d :: ds)
          end
      end
  end.

(** [list(Property.objects.all().values(fields...))]. *)
Definition query_values (fields : list string) : M (list Dict) :=
  fun s => (rows_values fields (store s), s, [EQueryValues fields]).

(** [Property.objects.count()]. *)
Definition query_count : M Z :=
  fun s => (inr (Z.of_nat (length (store s))), s, [EQueryCount]).

(* ------------------------------------------------------------------ *)
(** ** properties/utils.py *)

Definition properties_cache_key : string := "all_properties".

Definition property_fields : list string :=
  ["id"; "title"; "description"; "price"; "location"; "created_at"].

(** [get_all_properties()]: cache-aside read of the whole collection. *)
Definition get_all_properties : M (list Dict) :=
  do cached_properties <- cache_get properties_cache_key in
  match cached_properties with
  | Some cp => ret cp
  | None =>
      do properties_list <- query_values property_fields in
      do_ cache_set properties_cache_key properties_list 3600 in
      ret properties_list
  end.

(** [invalidate_properties_cache()]. *)
Definition invalidate_properties_cache : M unit :=
  cache_delete properties_cache_key.

(** The dict returned by [get_cache_stats()]. *)
Record CacheStats := mkStats {
  stats_cache_key : string;
  stats_is_cached : bool;
  stats_cached_count : Z;
  stats_database_count : Z;
  stats_cache_backend : string;
  stats_cache_timeout : string
}.

Definition stats_to_py (st : CacheStats) : PyVal :=
  PDict [("cache_key", PStr (stats_cache_key st));
         ("is_cached", PBool (stats_is_cached st));
         ("cached_count", PInt (stats_cached_count st));
         ("database_count", PInt (stats_database_count st));
         ("cache_backend", PStr (stats_cache_backend st));
         ("cache_timeout", PStr (stats_cache_timeout st))].

(** [get_cache_stats()]: the cache lookup comes first, then the count
    query, in the order the dict literal is evaluated. *)
Definition get_cache_stats : M CacheStats :=
  do cached_data <- cache_get properties_cache_key in
  do database_count <- query_count in
  ret (mkStats properties_cache_key
               (match cached_data with Some _ => true | None => false end)
               (match cached_data with
                | Some cd => if list_truthy cd then Z.of_nat (List.length cd) else 0
                | None => 0
                end)
               database_count
               "Redis"
               "1 hour (3600 seconds)").

(* ------------------------------------------------------------------ *)
(** ** properties/views.py *)

Record Request := mkRequest { method : string }.

Record Response := mkResponse {
  status_code : Z;
  body : PyVal
}.

(** [JsonResponse(data)] and [JsonResponse(data, status=...)]. *)
Definition JsonResponse (data : PyVal) : Response := mkResponse 200 data.
Definition JsonResponse_status (data : PyVal) (status : Z) : Response :=
  mkResponse status data.

(** [property_list(request)]. *)
Definition property_list (request : Request) : M Response :=
  do properties_list <- get_all_properties in
  do cache_stats <- get_cache_stats in
  ret (JsonResponse (PDict
    [("properties", PList (map PDict properties_list));
     ("count", PInt (Z.of_nat (List.length properties_list)));
     ("cache_info", PDict
        [("is_cached", PBool (stats_is_cached cache_stats));
         ("cache_backend", PStr (stats_cache_backend cache_stats));
         ("cache_timeout", PStr (stats_cache_timeout cache_stats));
         ("cache_key", PStr (stats_cache_key cache_stats))]);
     ("performance", PDict
        [("data_source", PStr (if stats_is_cached cache_stats
                               then "Redis Cache" else "PostgreSQL Database"));
         ("cache_hit", PBool (stats_is_cached cache_stats))])])).

(** [cache_stats(request)]. *)
Definition cache_stats_view (request : Request) : M Response :=
  do stats <- get_cache_stats in
  ret (JsonResponse (PDict
    [("cache_statistics", stats_to_py stats);
     ("message", PStr "Cache statistics retrieved successfully")])).

Definition invalidate_ok_body : PyVal :=
  PDict [("message", PStr "Properties cache invalidated successfully");
         ("action", PStr "cache_cleared");
         ("next_request", PStr "will_fetch_from_database")].

(** [invalidate_cache(request)]. *)
Definition invalidate_cache (request : Request) : M Response :=
  if String.eqb (method request) "POST" then
    do_ invalidate_properties_cache in
    ret (JsonResponse invalidate_ok_body)
  else
    ret (JsonResponse_status
           (PDict [("error", PStr "Only POST method allowed for cache invalidation");
                   ("current_method", PStr (method request))])
           405).

(* ------------------------------------------------------------------ *)
(** ** Observations used in the statements *)

Definition result_of {A} (o : (Exc + A) * St * list Event) : Exc + A := o.1.1.
Definition state_of {A} (o : (Exc + A) * St * list Event) : St := o.1.2.
Definition events_of {A} (o : (Exc + A) * St * list Event) : list Event := o.2.

(** The live value held under a key at the current instant. *)
Definition live_entry (k : string) (s : St) : option (list Dict) :=
  match cache s !! k with
  | Some e => if now s <? entry_expires e then Some (entry_value e) else None
  | None => None
  end.

Definition is_store_read (e : Event) : bool :=
  match e with EQueryValues _ | EQueryCount => true | _ => false end.

(** Nested lookup in a response body. *)
Fixpoint body_path (path : list string) (v : PyVal) : option PyVal :=
  match path with
  | [] => Some v
  | k :: ks => match py_get k v with Some v' => body_path ks v' | None => None end
  end.

(** The dict [.values(...)] yields for one row, written out field by field. *)
Definition property_dict (r : Property) : Dict :=
  [("id", PInt (prop_id r)); ("title", PStr (title r));
   ("description", PStr (description r)); ("price", PDecimal (price r));
   ("location", PStr (location r)); ("created_at", PDateTime (created_at r))].

Definition sample_row (n : Z) : Property :=
  mkProperty n "Flat" "Two rooms" 250000 "Lagos" 1700000000.

Definition empty_state (rows : list Property) : St := mkSt ∅ rows 0.

(** The list [get_all_properties] serves from a state, and the state and
    calls it leaves behind. *)
Definition served (s : St) : list Dict :=
  match live_entry properties_cache_key s with
  | Some v => v
  | None => map property_dict (store s)
  end.

Definition after_read (s : St) : St :=
  match live_entry properties_cache_key s with
  | Some _ => s
  | None =>
      mkSt (<[properties_cache_key :=
               mkEntry (map property_dict (store s)) (now s + 3600)]> (cache s))
           (store s) (now s)
  end.

(** A field of the response an operation returns. *)
Definition resp_field (path : list string)
    (o : (Exc + Response) * St * list Event) : option PyVal :=
  match result_of o with
  | inr r => body_path path (body r)
  | inl _ => None
  end.

(** Successive calls of [get_all_properties]; before each call the clock
    reads the given instant and the table holds the given rows (the world
    may change between requests, the cache is left as the calls leave it). *)
Fixpoint run_calls (calls : list (Z * list Property)) (s : St)
    : list (Exc + list Dict) * St * list Event :=
  match calls with
  | [] => ([], s, [])
  | (t, rows) :: cs =>
      match get_all_properties (mkSt (cache s) rows t) with
      | (r, s', ev) =>
          match run_calls cs s' with
          | (rs, sf, evs) => (r :: rs, sf, ev ++ evs)
          end
      end
  end.

(* ------------------------------------------------------------------ *)
(** ** properties/urls.py *)



Definition app_name : string := "properties".




(* ------------------------------------------------------------------ *)
(** ** Helper lemmas *)

Lemma row_values_property_fields (r : Property) :
  row_values property_fields r = inr (property_dict r).
Proof. destruct r; reflexivity. Qed.

Lemma rows_values_property_fields (rs : list Property) :
  rows_values property_fields rs = inr (map property_dict rs).
Proof.
  induction rs as [|r rs IH]; [reflexivity|].
  cbn [rows_values]. rewrite row_values_property_fields, IH. reflexivity.
Qed.

Lemma get_all_properties_eq (s : St) :
  get_all_properties s =
  match live_entry properties_cache_key s with
  | Some v => (inr v, s, [ECacheGet properties_cache_key])
  | None =>
      (inr (map property_dict (store s)), after_read s,
       [ECacheGet properties_cache_key; EQueryValues property_fields;
        ECacheSet properties_cache_key 3600])
  end.
Proof.
  unfold get_all_properties, after_read, bind, cache_get, live_entry.
  destruct (cache s !! properties_cache_key) as [e|] eqn:He;
    [destruct (now s <? entry_expires e) eqn:Hlt|]; try reflexivity;
    unfold query_values, cache_set; rewrite rows_values_property_fields;
    reflexivity.
Qed.

Lemma get_all_properties_served (s : St) :
  get_all_properties s =
  (inr (served s), after_read s,
   match live_entry properties_cache_key s with
   | Some _ => [ECacheGet properties_cache_key]
   | None => [ECacheGet properties_cache_key; EQueryValues property_fields;
              ECacheSet properties_cache_key 3600]
   end).
Proof.
  rewrite get_all_properties_eq. unfold served, after_read.
  destruct (live_entry properties_cache_key s); reflexivity.
Qed.

(** After a read, the entry holds the served list and is live. *)
Lemma after_read_entry (s : St) :
  exists e, cache (after_read s) !! properties_cache_key = Some e /\
            entry_value e = served s /\ now (after_read s) < entry_expires e.
Proof.
  unfold after_read, served, live_entry.
  destruct (cache s !! properties_cache_key) as [e|] eqn:He.
  - destruct (now s <? entry_expires e) eqn:Hlt.
    + exists e. rewrite He. apply Z.ltb_lt in Hlt. auto.
    + simpl. eexists. rewrite lookup_insert_eq. split; [reflexivity|].
      simpl. split; [reflexivity | lia].
  - simpl. eexists. rewrite lookup_insert_eq. split; [reflexivity|].
    simpl. split; [reflexivity | lia].
Qed.

Lemma after_read_live (s : St) :
  live_entry properties_cache_key (after_read s) = Some (served s).
Proof.
  destruct (after_read_entry s) as (e & He & Hv & Hlt).
  unfold live_entry. rewrite He. apply Z.ltb_lt in Hlt. rewrite Hlt, Hv.
  reflexivity.
Qed.

Lemma after_read_store (s : St) : store (after_read s) = store s.
Proof. unfold after_read. destruct (live_entry _ s); reflexivity. Qed.


Lemma get_cache_stats_eq (s : St) :
  get_cache_stats s =
  (inr (mkStats properties_cache_key
          (match live_entry properties_cache_key s with Some _ => true | None => false end)
          (match live_entry properties_cache_key s with
           | Some cd => if list_truthy cd then Z.of_nat (List.length cd) else 0
           | None => 0
           end)
          (Z.of_nat (List.length (store s))) "Redis" "1 hour (3600 seconds)"),
   s, [ECacheGet properties_cache_key; EQueryCount]).
Proof. reflexivity. Qed.

(** [property_list] serves [served s], always reports a live entry, and
    leaves the state of the read-through. *)
Lemma property_list_eq (request : Request) (s : St) :
  property_list request s =
  (inr (JsonResponse (PDict
    [("properties", PList (map PDict (served s)));
     ("count", PInt (Z.of_nat (List.length (served s))));
     ("cache_info", PDict
        [("is_cached", PBool true);
         ("cache_backend", PStr "Redis");
         ("cache_timeout", PStr "1 hour (3600 seconds)");
         ("cache_key", PStr properties_cache_key)]);
     ("performance", PDict
        [("data_source", PStr "Redis Cache");
         ("cache_hit", PBool true)])])),
   after_read s,
   events_of (get_all_properties s) ++ [ECacheGet properties_cache_key; EQueryCount]).
Proof.
  unfold property_list. unfold bind at 1.
  rewrite get_all_properties_served. cbn [events_of snd].
  unfold bind. rewrite get_cache_stats_eq, after_read_live. reflexivity.
Qed.

(** Serving from a cache whose entry was filled from the current rows
    gives those rows, whether or not the entry is still live. *)
Lemma served_refilled (rows : list Property) (t : Z) (c : gmap string CacheEntry)
    (e : CacheEntry) :
  c !! properties_cache_key = Some e -> entry_value e = map property_dict rows ->
  served (mkSt c rows t) = map property_dict rows.
Proof.
  intros He Hv. unfold served, live_entry. cbn [cache store now]. rewrite He.
  destruct (t <? entry_expires e); [exact Hv | reflexivity].
Qed.

Lemma served_cold (s : St) :
  live_entry properties_cache_key s = None -> served s = map property_dict (store s).
Proof. intros H. unfold served. rewrite H. reflexivity. Qed.

(** Calls made while the entry stays live are all hits on it. *)
Lemma run_calls_hits (calls : list (Z * list Property)) (c : gmap string CacheEntry)
    (e : CacheEntry) (s : St) :
  cache s = c -> c !! properties_cache_key = Some e ->
  Forall (fun x => x.1 < entry_expires e) calls ->
  (run_calls calls s).1.1 = repeat (inr (entry_value e)) (List.length calls) /\
  Forall (fun ev => is_store_read ev = false) (run_calls calls s).2 /\
  cache (run_calls calls s).1.2 = c.
Proof.
  intros Hc He Hall. revert s Hc.
  induction Hall as [|[t rows] cs Ht Hall IH]; intros s Hc.
  - simpl. auto.
  - cbn [run_calls]. rewrite get_all_properties_eq.
    assert (Hl : live_entry properties_cache_key (mkSt (cache s) rows t)
                 = Some (entry_value e)).
    { unfold live_entry. cbn [cache now]. rewrite Hc, He.
      apply Z.ltb_lt in Ht. cbn in Ht. rewrite Ht. reflexivity. }
    rewrite Hl.
    destruct (IH (mkSt (cache s) rows t) Hc) as (H1 & H2 & H3).
    destruct (run_calls cs (mkSt (cache s) rows t)) as [[rs sf] evs].
    cbn in *. rewrite H1. split; [reflexivity|]. split; [|exact H3].
    constructor; [reflexivity | exact H2].
Qed.

Lemma lookup_map_dicts (rows : list Property) (i : nat) :
  map property_dict rows !! i = option_map property_dict (rows !! i).
Proof.
  revert i. induction rows as [|r rows IH]; intros [|i]; simpl; auto.
Qed.

Lemma truthy_length {A} (l : list A) :
  (if list_truthy l then Z.of_nat (List.length l) else 0) = Z.of_nat (List.length l).
Proof. destruct l; reflexivity. Qed.

(* ------------------------------------------------------------------ *)
(** ** Claims *)

(** C1: [get_all_properties] looks up the fixed key ["all_properties"]
    first; on a hit it returns the cached list and touches neither the
    store nor the cache; on a miss it reads all rows from the store,
    stores that list under the key with a 3600-second TTL and returns the
    same list. *)
Theorem get_all_properties_cache_aside (s : St) :
  get_all_properties s =
  match live_entry "all_properties" s with
  | Some v => (inr v, s, [ECacheGet "all_properties"])
  | None =>
      (inr (map property_dict (store s)),
       mkSt (<["all_properties" :=
                mkEntry (map property_dict (store s)) (now s + 3600)]> (cache s))
            (store s) (now s),
       [ECacheGet "all_properties"; EQueryValues property_fields;
        ECacheSet "all_properties" 3600])
  end.
Proof.
  rewrite get_all_properties_eq. unfold after_read, properties_cache_key.
  destruct (live_entry "all_properties" s); reflexivity.
Qed.

(** C2: a non-POST request to the invalidate handler gets status 405 and
    the body naming its method, without any cache call; a POST request
    deletes the cache key and gets status 200 with the message, action and
    next_request fields. *)
Theorem invalidate_cache_method_gate (request : Request) (s : St) :
  (method request <> "POST" ->
   invalidate_cache request s =
   (inr (mkResponse 405
           (PDict [("error", PStr "Only POST method allowed for cache invalidation");
                   ("current_method", PStr (method request))])),
    s, [])) /\
  (method request = "POST" ->
   invalidate_cache request s =
   (inr (mkResponse 200
           (PDict [("message", PStr "Properties cache invalidated successfully");
                   ("action", PStr "cache_cleared");
                   ("next_request", PStr "will_fetch_from_database")])),
    mkSt (delete "all_properties" (cache s)) (store s) (now s),
    [ECacheDelete "all_properties"])).
Proof.
  unfold invalidate_cache. split; intros Hm.
  - apply String.eqb_neq in Hm. rewrite Hm. reflexivity.
  - rewrite Hm. reflexivity.
Qed.

Lemma invalidate_cache_method_gate_witness :
  invalidate_cache (mkRequest "GET") (empty_state []) =
  (inr (mkResponse 405
          (PDict [("error", PStr "Only POST method allowed for cache invalidation");
                  ("current_method", PStr "GET")])),
   empty_state [], []) /\
  invalidate_cache (mkRequest "POST") (empty_state []) =
  (inr (mkResponse 200 invalidate_ok_body),
   mkSt (delete "all_properties" (cache (empty_state []))) [] 0,
   [ECacheDelete "all_properties"]).
Proof.
  split.
  - apply (proj1 (invalidate_cache_method_gate (mkRequest "GET") (empty_state []))).
    simpl. discriminate.
  - apply (proj2 (invalidate_cache_method_gate (mkRequest "POST") (empty_state []))).
    reflexivity.
Defined.

(** C3 (as stated): on a store of three rows, the second list call does
    not label its data source ["Cache"]; the label is ["Redis Cache"]. *)
Lemma property_list_second_call_not_Cache :
  let rows := [sample_row 1; sample_row 2; sample_row 3] in
  let s1 := state_of (property_list (mkRequest "GET") (empty_state rows)) in
  resp_field ["performance"; "data_source"] (property_list (mkRequest "GET") s1)
    <> Some (PStr "Cache").
Proof. vm_compute. discriminate. Qed.

(** C3 (amended): on a store of three rows, after a first list call that
    populates the cache, a second list call (at any later instant, on the
    same rows) returns the same three records as the first, with
    [cache_info.is_cached] true and [performance.data_source] equal to
    ["Redis Cache"]. *)
Theorem property_list_second_call (rows : list Property) (s0 : St) (t2 : Z)
    (req1 req2 : Request)
    (H3 : List.length rows = 3%nat) (Hstore : store s0 = rows)
    (Hcold : live_entry "all_properties" s0 = None) :
  let o1 := property_list req1 s0 in
  let o2 := property_list req2 (mkSt (cache (state_of o1)) rows t2) in
  resp_field ["properties"] o1 = Some (PList (map PDict (map property_dict rows))) /\
  resp_field ["properties"] o2 = Some (PList (map PDict (map property_dict rows))) /\
  resp_field ["count"] o2 = Some (PInt 3) /\
  resp_field ["cache_info"; "is_cached"] o2 = Some (PBool true) /\
  resp_field ["performance"; "data_source"] o2 = Some (PStr "Redis Cache").
Proof.
  cbv zeta. rewrite !property_list_eq. cbn [state_of fst snd].
  destruct (after_read_entry s0) as (e & He & Hv & _).
  rewrite (served_cold s0 Hcold), Hstore in Hv.
  rewrite (served_refilled rows t2 _ e He Hv).
  rewrite (served_cold s0 Hcold), Hstore.
  rewrite length_map, H3. repeat split; reflexivity.
Qed.

Lemma property_list_second_call_witness :
  let rows := [sample_row 1; sample_row 2; sample_row 3] in
  List.length rows = 3%nat /\ store (empty_state rows) = rows /\
  live_entry "all_properties" (empty_state rows) = None /\
  let o1 := property_list (mkRequest "GET") (empty_state rows) in
  let o2 := property_list (mkRequest "GET") (mkSt (cache (state_of o1)) rows 10) in
  resp_field ["properties"] o1 = Some (PList (map PDict (map property_dict rows))) /\
  resp_field ["properties"] o2 = Some (PList (map PDict (map property_dict rows))) /\
  resp_field ["count"] o2 = Some (PInt 3) /\
  resp_field ["cache_info"; "is_cached"] o2 = Some (PBool true) /\
  resp_field ["performance"; "data_source"] o2 = Some (PStr "Redis Cache").
Proof.
  cbv zeta. split; [reflexivity|]. split; [reflexivity|]. split; [reflexivity|].
  exact (property_list_second_call [sample_row 1; sample_row 2; sample_row 3]
           (empty_state [sample_row 1; sample_row 2; sample_row 3]) 10
           (mkRequest "GET") (mkRequest "GET") eq_refl eq_refl eq_refl).
Defined.

(** C4: after a call of [get_all_properties], further calls made while
    its entry has not expired (whatever the table holds by then) return
    the same result, read nothing from the store and leave the cache as
    it is. *)
Theorem get_all_properties_repeat (s : St) (calls : list (Z * list Property))
    (Hnoexp : forall e, cache (state_of (get_all_properties s)) !! "all_properties" = Some e ->
              Forall (fun c => c.1 < entry_expires e) calls) :
  let o := get_all_properties s in
  let rc := run_calls calls (state_of o) in
  rc.1.1 = repeat (result_of o) (List.length calls) /\
  Forall (fun ev => is_store_read ev = false) rc.2 /\
  cache rc.1.2 = cache (state_of o).
Proof.
  cbv zeta. rewrite get_all_properties_served in *. cbn [state_of result_of fst snd] in *.
  destruct (after_read_entry s) as (e & He & Hv & _).
  rewrite <- Hv. apply (run_calls_hits calls _ e); auto.
Qed.

Lemma get_all_properties_repeat_witness :
  let s := empty_state [sample_row 1] in
  let calls := [(5, [sample_row 1]); (100, []); (3599, [sample_row 2; sample_row 3])] in
  (forall e, cache (state_of (get_all_properties s)) !! "all_properties" = Some e ->
             Forall (fun c => c.1 < entry_expires e) calls) /\
  let o := get_all_properties s in
  let rc := run_calls calls (state_of o) in
  rc.1.1 = repeat (result_of o) (List.length calls) /\
  Forall (fun ev => is_store_read ev = false) rc.2 /\
  cache rc.1.2 = cache (state_of o).
Proof.
  cbv zeta.
  assert (H : forall e, cache (state_of (get_all_properties (empty_state [sample_row 1])))
                          !! "all_properties" = Some e ->
              Forall (fun c : Z * list Property => c.1 < entry_expires e)
                [(5, [sample_row 1]); (100, []); (3599, [sample_row 2; sample_row 3])]).
  { intros e He. vm_compute in He. injection He as <-.
    repeat constructor; vm_compute; reflexivity. }
  split; [exact H|].
  exact (get_all_properties_repeat _ _ H).
Defined.

(** C5: [invalidate_properties_cache] deletes the key ["all_properties"]
    whatever the cache holds; when the key is absent this leaves the state
    unchanged and raises nothing; two POSTs to the invalidate handler in a
    row give the same success response. *)
Theorem invalidate_idempotent (s : St) :
  invalidate_properties_cache s =
    (inr tt, mkSt (delete "all_properties" (cache s)) (store s) (now s),
     [ECacheDelete "all_properties"]) /\
  (cache s !! "all_properties" = None ->
   invalidate_properties_cache s = (inr tt, s, [ECacheDelete "all_properties"])) /\
  (let o1 := invalidate_cache (mkRequest "POST") s in
   let o2 := invalidate_cache (mkRequest "POST") (state_of o1) in
   result_of o1 = inr (JsonResponse invalidate_ok_body) /\
   result_of o2 = result_of o1 /\
   cache (state_of o2) = cache (state_of o1)).
Proof.
  split; [reflexivity|]. split.
  - intros Hnone. unfold invalidate_properties_cache, cache_delete.
    rewrite (delete_id (cache s) _ Hnone). destruct s; reflexivity.
  - cbv zeta. unfold invalidate_cache. cbn [method String.eqb].
    cbn. split; [reflexivity|]. split; [reflexivity|].
    rewrite delete_delete_eq. reflexivity.
Qed.

Lemma invalidate_idempotent_witness :
  cache (empty_state []) !! "all_properties" = None /\
  invalidate_properties_cache (empty_state []) =
    (inr tt, empty_state [], [ECacheDelete "all_properties"]).
Proof.
  split; [reflexivity|].
  exact (proj1 (proj2 (invalidate_idempotent (empty_state []))) eq_refl).
Defined.

(** C6: [get_cache_stats] reports as [cached_count] the length of the
    live cached list, or 0 without one, and as [database_count] the number
    of rows; right after a read-through that missed, [cached_count] does
    not exceed [database_count]. *)
Theorem get_cache_stats_counts (s : St) :
  (exists st,
     get_cache_stats s = (inr st, s, [ECacheGet "all_properties"; EQueryCount]) /\
     stats_cached_count st =
       match live_entry "all_properties" s with
       | Some v => Z.of_nat (List.length v)
       | None => 0
       end /\
     stats_database_count st = Z.of_nat (List.length (store s))) /\
  (live_entry "all_properties" s = None ->
   forall st, result_of (get_cache_stats (state_of (get_all_properties s))) = inr st ->
   stats_cached_count st <= stats_database_count st).
Proof.
  split.
  - rewrite get_cache_stats_eq. eexists. split; [reflexivity|]. cbn.
    split; [|reflexivity].
    unfold properties_cache_key.
    destruct (live_entry "all_properties" s) as [[|x l]|]; reflexivity.
  - intros Hcold st Hst.
    rewrite get_all_properties_served in Hst. cbn [state_of fst snd] in Hst.
    rewrite get_cache_stats_eq, after_read_live in Hst.
    cbn [result_of fst] in Hst. injection Hst as <-.
    cbn [stats_cached_count stats_database_count].
    rewrite truthy_length, after_read_store, (served_cold s Hcold), length_map.
    lia.
Qed.

Lemma get_cache_stats_counts_witness :
  live_entry "all_properties" (empty_state [sample_row 1; sample_row 2]) = None /\
  (forall st, result_of (get_cache_stats (state_of (get_all_properties
                 (empty_state [sample_row 1; sample_row 2])))) = inr st ->
   stats_cached_count st <= stats_database_count st).
Proof.
  split; [reflexivity|].
  exact (proj2 (get_cache_stats_counts (empty_state [sample_row 1; sample_row 2])) eq_refl).
Defined.

(** C7: a list call on a cold cache and a non-empty table reads the rows
    from the store, yet reports [is_cached] true and the data source
    ["Redis Cache"], because the stats lookup follows the read-through. *)
Theorem property_list_cold_reports_cached (request : Request) (s : St)
    (Hcold : live_entry "all_properties" s = None) (Hne : store s <> []) :
  let o := property_list request s in
  In (EQueryValues property_fields) (events_of o) /\
  resp_field ["properties"] o = Some (PList (map PDict (map property_dict (store s)))) /\
  resp_field ["cache_info"; "is_cached"] o = Some (PBool true) /\
  resp_field ["performance"; "data_source"] o = Some (PStr "Redis Cache").
Proof.
  cbv zeta. rewrite property_list_eq, get_all_properties_served.
  cbn [events_of result_of resp_field fst snd].
  unfold properties_cache_key in *. rewrite Hcold.
  rewrite (served_cold s Hcold).
  split; [cbn; auto 6|]. repeat split; reflexivity.
Qed.

Lemma property_list_cold_reports_cached_witness :
  live_entry "all_properties" (empty_state [sample_row 7]) = None /\
  store (empty_state [sample_row 7]) <> [] /\
  let o := property_list (mkRequest "GET") (empty_state [sample_row 7]) in
  In (EQueryValues property_fields) (events_of o) /\
  resp_field ["properties"] o =
    Some (PList (map PDict (map property_dict (store (empty_state [sample_row 7]))))) /\
  resp_field ["cache_info"; "is_cached"] o = Some (PBool true) /\
  resp_field ["performance"; "data_source"] o = Some (PStr "Redis Cache").
Proof.
  assert (Hne : store (empty_state [sample_row 7]) <> []) by discriminate.
  split; [reflexivity|]. split; [exact Hne|].
  exact (property_list_cold_reports_cached (mkRequest "GET") (empty_state [sample_row 7])
           eq_refl Hne).
Defined.

(** C8: on a cache miss, [get_all_properties] issues one values query
    over exactly the fields id, title, description, price, location and
    created_at, and returns one dict per row of the table, in table order,
    each holding exactly those six fields of its row. *)
Theorem get_all_properties_miss_projection (s : St)
    (Hmiss : live_entry "all_properties" s = None) :
  In (EQueryValues ["id"; "title"; "description"; "price"; "location"; "created_at"])
     (events_of (get_all_properties s)) /\
  exists l, result_of (get_all_properties s) = inr l /\
    List.length l = List.length (store s) /\
    forall (i : nat) (r : Property), store s !! i = Some r ->
      l !! i = Some [("id", PInt (prop_id r)); ("title", PStr (title r));
                     ("description", PStr (description r)); ("price", PDecimal (price r));
                     ("location", PStr (location r));
                     ("created_at", PDateTime (created_at r))].
Proof.
  rewrite get_all_properties_eq. unfold properties_cache_key. rewrite Hmiss.
  split; [cbn; auto|].
  exists (map property_dict (store s)). split; [reflexivity|].
  split; [apply length_map|].
  intros i r Hi. rewrite lookup_map_dicts, Hi. reflexivity.
Qed.

Lemma get_all_properties_miss_projection_witness :
  live_entry "all_properties" (empty_state [sample_row 1; sample_row 2]) = None /\
  In (EQueryValues ["id"; "title"; "description"; "price"; "location"; "created_at"])
     (events_of (get_all_properties (empty_state [sample_row 1; sample_row 2]))).
Proof.
  split; [reflexivity|].
  exact (proj1 (get_all_properties_miss_projection
                  (empty_state [sample_row 1; sample_row 2]) eq_refl)).
Defined.

(** C9: whenever [get_all_properties] returns a list, the cache then holds
    that list, live, under ["all_properties"]. *)
Theorem get_all_properties_leaves_entry (s s1 : St) (r : list Dict) (ev : list Event)
    (Hok : get_all_properties s = (inr r, s1, ev)) :
  live_entry "all_properties" s1 = Some r.
Proof.
  rewrite get_all_properties_served in Hok. injection Hok as Hr Hs _.
  subst r s1. apply after_read_live.
Qed.

Lemma get_all_properties_leaves_entry_witness :
  get_all_properties (empty_state [sample_row 4]) =
    (inr [property_dict (sample_row 4)],
     state_of (get_all_properties (empty_state [sample_row 4])),
     events_of (get_all_properties (empty_state [sample_row 4]))) /\
  live_entry "all_properties" (state_of (get_all_properties (empty_state [sample_row 4])))
    = Some [property_dict (sample_row 4)].
Proof.
  assert (H : get_all_properties (empty_state [sample_row 4]) =
    (inr [property_dict (sample_row 4)],
     state_of (get_all_properties (empty_state [sample_row 4])),
     events_of (get_all_properties (empty_state [sample_row 4])))) by reflexivity.
  split; [exact H|].
  exact (get_all_properties_leaves_entry _ _ _ _ H).
Defined.

(** C10: the invalidate handler, on a request whose method is not POST,
    leaves the state unchanged and makes no cache or store call. *)
Theorem invalidate_cache_reject_no_effect (request : Request) (s : St)
    (Hm : method request <> "POST") :
  state_of (invalidate_cache request s) = s /\ events_of (invalidate_cache request s) = [].
Proof.
  unfold invalidate_cache. apply String.eqb_neq in Hm. rewrite Hm. split; reflexivity.
Qed.

Lemma invalidate_cache_reject_no_effect_witness :
  let s := mkSt (<["all_properties" := mkEntry [property_dict (sample_row 1)] 3600]> ∅)
                [sample_row 1] 0 in
  method (mkRequest "DELETE") <> "POST" /\
  state_of (invalidate_cache (mkRequest "DELETE") s) = s /\
  events_of (invalidate_cache (mkRequest "DELETE") s) = [].
Proof.
  assert (Hm : method (mkRequest "DELETE") <> "POST") by discriminate.
  split; [exact Hm|]. exact (invalidate_cache_reject_no_effect _ _ Hm).
Defined.

(* ------------------------------------------------------------------ *)
(** ** Further properties of the code *)



(** The stats view reads the cache entry and counts the table, changes
    nothing, and returns the live entry's status and length next to the
    row count. *)
Theorem cache_stats_view_readonly (request : Request) (s : St) :
  exists st,
    cache_stats_view request s =
      (inr (JsonResponse (PDict [("cache_statistics", stats_to_py st);
                                 ("message", PStr "Cache statistics retrieved successfully")])),
       s, [ECacheGet "all_properties"; EQueryCount]) /\
    stats_is_cached st = match live_entry "all_properties" s with Some _ => true | None => false end /\
    stats_cached_count st =
      match live_entry "all_properties" s with
      | Some v => Z.of_nat (List.length v)
      | None => 0
      end /\
    stats_database_count st = Z.of_nat (List.length (store s)).
Proof.
  unfold cache_stats_view, bind. rewrite get_cache_stats_eq.
  eexists. split; [reflexivity|]. cbn.
  unfold properties_cache_key.
  destruct (live_entry "all_properties" s) as [[|x l]|]; repeat split.
Qed.

(** The list view always succeeds with status 200; its count is the
    length of the list it serves, and it never labels its source the
    database: the stats lookup that sets the label follows the read. *)
Theorem property_list_never_database (request : Request) (s : St) :
  exists resp, result_of (property_list request s) = inr resp /\
    status_code resp = 200 /\
    resp_field ["count"] (property_list request s) =
      Some (PInt (Z.of_nat (List.length (served s)))) /\
    resp_field ["performance"; "data_source"] (property_list request s)
      <> Some (PStr "PostgreSQL Database") /\
    resp_field ["performance"; "cache_hit"] (property_list request s) = Some (PBool true).
Proof.
  rewrite property_list_eq. eexists. split; [reflexivity|].
  split; [reflexivity|]. split; [reflexivity|]. split; [|reflexivity].
  cbn. discriminate.
Qed.



(** A POST to the invalidate handler followed by a list request: the list
    request queries the table and serves its current rows, as the
    handler's [next_request] field announces. *)
Theorem invalidate_then_list_fetches (s : St) (request : Request) :
  let s1 := state_of (invalidate_cache (mkRequest "POST") s) in
  resp_field ["next_request"] (invalidate_cache (mkRequest "POST") s) =
    Some (PStr "will_fetch_from_database") /\
  In (EQueryValues property_fields) (events_of (property_list request s1)) /\
  resp_field ["properties"] (property_list request s1) =
    Some (PList (map PDict (map property_dict (store s)))).
Proof.
  cbv zeta. unfold invalidate_cache. cbn [method String.eqb Ascii.eqb Bool.eqb].
  unfold bind, invalidate_properties_cache, cache_delete. cbn [ret state_of fst snd].
  assert (Hl : live_entry properties_cache_key
                 (mkSt (delete properties_cache_key (cache s)) (store s) (now s)) = None).
  { unfold live_entry. cbn [cache]. rewrite lookup_delete_eq. reflexivity. }
  split; [reflexivity|].
  rewrite property_list_eq, get_all_properties_served, Hl.
  rewrite (served_cold _ Hl). split; [cbn; auto 6 | reflexivity].
Qed.

(** After [invalidate_properties_cache] the stats report no entry and a
    cached count of 0, while the row count is still the table's. *)
Theorem stats_after_invalidate (s : St) :
  exists st,
    result_of (get_cache_stats (state_of (invalidate_properties_cache s))) = inr st /\
    stats_is_cached st = false /\ stats_cached_count st = 0 /\
    stats_database_count st = Z.of_nat (List.length (store s)).
Proof.
  unfold invalidate_properties_cache, cache_delete. cbn [state_of fst snd].
  rewrite get_cache_stats_eq.
  assert (Hl : live_entry properties_cache_key
                 (mkSt (delete properties_cache_key (cache s)) (store s) (now s)) = None).
  { unfold live_entry. cbn [cache]. rewrite lookup_delete_eq. reflexivity. }
  rewrite Hl. eexists. repeat split.
Qed.

(** An empty table is cached as an empty list, and that empty list is a
    hit on the next call ([is not None], not truthiness, decides it): no
    second query, and the stats report the entry with a count of 0. *)
Theorem empty_table_cached_as_hit (s : St)
    (Hempty : store s = []) (Hcold : live_entry "all_properties" s = None) :
  let s1 := state_of (get_all_properties s) in
  get_all_properties s1 = (inr [], s1, [ECacheGet "all_properties"]) /\
  exists st, result_of (get_cache_stats s1) = inr st /\
    stats_is_cached st = true /\ stats_cached_count st = 0.
Proof.
  cbv zeta. rewrite (get_all_properties_served s). cbn [state_of fst snd].
  pose proof (after_read_live s) as Hl.
  rewrite (served_cold s Hcold), Hempty in Hl.
  split.
  - rewrite get_all_properties_served, Hl.
    assert (Hs : served (after_read s) = []) by (unfold served; rewrite Hl; reflexivity).
    assert (Ha : after_read (after_read s) = after_read s)
      by (unfold after_read at 1; rewrite Hl; reflexivity).
    rewrite Hs, Ha. reflexivity.
  - rewrite get_cache_stats_eq, Hl. eexists. repeat split.
Qed.

Lemma empty_table_cached_as_hit_witness :
  store (empty_state []) = [] /\ live_entry "all_properties" (empty_state []) = None /\
  let s1 := state_of (get_all_properties (empty_state [])) in
  get_all_properties s1 = (inr [], s1, [ECacheGet "all_properties"]) /\
  exists st, result_of (get_cache_stats s1) = inr st /\
    stats_is_cached st = true /\ stats_cached_count st = 0.
Proof.
  split; [reflexivity|]. split; [reflexivity|].
  exact (empty_table_cached_as_hit (empty_state []) eq_refl eq_refl).
Defined.

(** An entry whose expiry instant has been reached counts as a miss:
    [get_all_properties] queries the table again and replaces the entry
    with the current rows, to expire 3600 seconds from now. *)
Theorem expired_entry_refetched (s : St) (e : CacheEntry)
    (He : cache s !! "all_properties" = Some e) (Hexp : entry_expires e <= now s) :
  result_of (get_all_properties s) = inr (map property_dict (store s)) /\
  In (EQueryValues property_fields) (events_of (get_all_properties s)) /\
  cache (state_of (get_all_properties s)) !! "all_properties" =
    Some (mkEntry (map property_dict (store s)) (now s + 3600)).
Proof.
  assert (Hl : live_entry properties_cache_key s = None).
  { unfold live_entry. unfold properties_cache_key. rewrite He.
    replace (now s <? entry_expires e) with false; [reflexivity|].
    symmetry. apply Z.ltb_ge. exact Hexp. }
  rewrite get_all_properties_eq, Hl. cbn [result_of events_of state_of fst snd].
  split; [reflexivity|]. split; [cbn; auto|].
  unfold after_read. rewrite Hl. cbn [cache]. apply lookup_insert_eq.
Qed.

Lemma expired_entry_refetched_witness :
  let s := mkSt (<["all_properties" := mkEntry [] 3600]> ∅) [sample_row 5] 3600 in
  cache s !! "all_properties" = Some (mkEntry [] 3600) /\ 3600 <= now s /\
  result_of (get_all_properties s) = inr (map property_dict (store s)) /\
  In (EQueryValues property_fields) (events_of (get_all_properties s)) /\
  cache (state_of (get_all_properties s)) !! "all_properties" =
    Some (mkEntry (map property_dict (store s)) (now s + 3600)).
Proof.
  cbv zeta.
  assert (He : cache (mkSt (<["all_properties" := mkEntry [] 3600]> ∅) [sample_row 5] 3600)
                 !! "all_properties" = Some (mkEntry [] 3600)) by reflexivity.
  assert (Hx : entry_expires (mkEntry [] 3600)
               <= now (mkSt (<["all_properties" := mkEntry [] 3600]> ∅) [sample_row 5] 3600))
    by (cbn; lia).
  split; [exact He|]. split; [exact Hx|].
  exact (expired_entry_refetched _ _ He Hx).
Defined.


(** The views touch no cache key other than ["all_properties"]. *)
Theorem views_touch_only_their_key (request : Request) (s : St) (k : string)
    (Hk : k <> "all_properties") :
  cache (state_of (property_list request s)) !! k = cache s !! k /\
  cache (state_of (cache_stats_view request s)) !! k = cache s !! k /\
  cache (state_of (invalidate_cache request s)) !! k = cache s !! k.
Proof.
  split; [|split].
  - rewrite property_list_eq. cbn [state_of fst snd]. unfold after_read.
    destruct (live_entry properties_cache_key s); [reflexivity|].
    cbn [cache]. apply lookup_insert_ne. unfold properties_cache_key. congruence.
  - unfold cache_stats_view, bind. rewrite get_cache_stats_eq. reflexivity.
  - unfold invalidate_cache. destruct (String.eqb (method request) "POST"); [|reflexivity].
    cbn. apply lookup_delete_ne. unfold properties_cache_key. congruence.
Qed.

Lemma views_touch_only_their_key_witness :
  let s := mkSt (<["session" := mkEntry [] 100]> ∅) [sample_row 1] 0 in
  "session" <> "all_properties" /\
  cache (state_of (property_list (mkRequest "GET") s)) !! "session" = cache s !! "session" /\
  cache (state_of (cache_stats_view (mkRequest "GET") s)) !! "session" = cache s !! "session" /\
  cache (state_of (invalidate_cache (mkRequest "POST") s)) !! "session" = cache s !! "session".
Proof.
  cbv zeta.
  assert (Hk : "session" <> "all_properties") by discriminate.
  split; [exact Hk|].
  pose proof (views_touch_only_their_key (mkRequest "GET")
                (mkSt (<["session" := mkEntry [] 100]> ∅) [sample_row 1] 0) _ Hk) as [H1 [H2 _]].
  pose proof (views_touch_only_their_key (mkRequest "POST")
                (mkSt (<["session" := mkEntry [] 100]> ∅) [sample_row 1] 0) _ Hk) as [_ [_ H3]].
  auto.
Defined.
